(** * BMI Calculator: the evaluator and the history aggregator of bmi_app.py

    The two pure functions of [bmi_app.py], [calculate_bmi] and
    [get_bmi_statistics], embedded as Rocq functions; then the password
    hash, the database functions and the forms of [main], with the
    database and the session passed explicitly.

    Number model.  Python's [float] is read as an exact rational ([Q]):
    arithmetic is exact, there is no overflow, no NaN and no infinity.
    Rational equality is [Qeq] ([==]); a value the code returns as a literal
    ([0.0], [0]) is stated with Leibniz equality.  An operation that raises
    in Python ([ZeroDivisionError], [IndexError]) yields [None]. *)

From Stdlib Require Import QArith Qround Qabs Lqa ZArith Lia Ascii.
From stdpp Require Import gmap strings list fin_maps sorting.

Open Scope Q_scope.

(** ** Python primitives on numbers *)

Module Py.

(** [x < y] and [x <= y] as Python evaluates them, to a [bool]. *)
Definition lt (x y : Q) : bool :=
  match x ?= y with Lt => true | _ => false end.

Definition gt (x y : Q) : bool :=
  match x ?= y with Gt => true | _ => false end.

Definition le (x y : Q) : bool := Qle_bool x y.

(** [x / y]: true division, [ZeroDivisionError] on a zero divisor. *)
Definition truediv (x y : Q) : option Q :=
  if Qeq_bool y 0 then None else Some (x / y).

(** [x ** n] for a literal integer exponent. *)
Definition pow (x : Q) (n : Z) : Q := x ^ n.

(** The integer nearest to [x], a tie going to the even neighbour. *)
Definition round_half_even (x : Q) : Z :=
  let f := Qfloor x in
  match Qcompare (x - inject_Z f) (1 # 2) with
  | Lt => f
  | Gt => (f + 1)%Z
  | Eq => if Z.even f then f else (f + 1)%Z
  end.

(** [round(x, ndigits)] for [ndigits >= 0]: the nearest multiple of
    [10 ** -ndigits], ties to even. *)
Definition round (x : Q) (ndigits : nat) : Q :=
  let scale := inject_Z (10 ^ Z.of_nat ndigits) in
  inject_Z (round_half_even (x * scale)) / scale.

End Py.

(** ** The BMI evaluator, [calculate_bmi] *)

(** The result is the pair [(bmi, category)]; [None] stands for a raised
    exception. *)
Definition calculate_bmi (weight height : Q) : option (Q * string) :=
  if Py.le height 0 then
    Some (0, "Invalid height"%string)
  else
    bmi ← Py.truediv weight (Py.pow height 2);
    let category :=
      if Py.lt bmi 18.5 then "Underweight"%string
      else if Py.le 18.5 bmi && Py.lt bmi 25 then "Normal weight"%string
      else if Py.le 25 bmi && Py.lt bmi 30 then "Overweight"%string
      else "Obese"%string in
    Some (Py.round bmi 2, category).

(** ** The history aggregator, [get_bmi_statistics] *)

(** One row of the frame that [get_user_bmi_history] reads: the columns of
    its [SELECT], in order. *)
Record Row := mkRow {
  weight : Q;
  height : Q;
  bmi : Q;
  category : string;
  recorded_at : Z
}.

(** A [DataFrame] is its rows, in the order the query returned them
    ([ORDER BY recorded_at DESC]: most recent first). *)
Definition DataFrame := list Row.

(** The values a statistics dictionary holds: [int], [float] and [str]. *)
Inductive value :=
| VInt (n : Z)
| VFloat (x : Q)
| VStr (s : string).

Module Pd.

(** [df.empty] *)
Definition empty (df : DataFrame) : bool :=
  match df with [] => true | _ :: _ => false end.

(** [len(df)] *)
Definition len (df : DataFrame) : Z := Z.of_nat (length df).

(** [df.iloc[i]]: a negative [i] counts from the end; [IndexError] out of
    bounds. *)
Definition iloc (df : DataFrame) (i : Z) : option Row :=
  if (0 <=? i)%Z then df !! Z.to_nat i
  else if (- len df <=? i)%Z then df !! Z.to_nat (len df + i)
  else None.

(** [df['bmi']] *)
Definition col_bmi (df : DataFrame) : list Q := map bmi df.

(** [Series.sum()] *)
Definition sum (s : list Q) : Q := fold_left Qplus s 0.

(** [Series.mean()]: the sum over the count.  On an empty column pandas
    gives NaN, which has no rational counterpart: no value. *)
Definition mean (s : list Q) : option Q :=
  match s with
  | [] => None
  | _ :: _ => Some (sum s / inject_Z (Z.of_nat (length s)))
  end.

(** One step of a running extremum: [y] replaces the running value [m]
    when it is [better]. *)
Definition pick (better : Q -> Q -> bool) (m y : Q) : Q :=
  if better y m then y else m.

(** [Series.min()] and [Series.max()]: the running least (greatest) value
    over the column; no value on an empty column. *)
Definition min (s : list Q) : option Q :=
  match s with
  | [] => None
  | x :: s' => Some (fold_left (pick Py.lt) s' x)
  end.

Definition max (s : list Q) : option Q :=
  match s with
  | [] => None
  | x :: s' => Some (fold_left (pick Py.gt) s' x)
  end.

End Pd.

(** The dictionary is built key by key, each value evaluated in the order
    of the literal; a conditional expression evaluates its test first and
    [and] short-circuits.  The column aggregates are reached only on a
    frame that has rows, where they have a value. *)
Definition get_bmi_statistics (df : DataFrame) : option (gmap string value) :=
  if Pd.empty df then Some ∅
  else
    total_records ← Some (VInt (Pd.len df));
    current_bmi ← (r ← Pd.iloc df 0; Some (VFloat (bmi r)));
    average_bmi ← VFloat <$> Pd.mean (Pd.col_bmi df);
    min_bmi ← VFloat <$> Pd.min (Pd.col_bmi df);
    max_bmi ← VFloat <$> Pd.max (Pd.col_bmi df);
    weight_change ←
      (if (1 <? Pd.len df)%Z then
         a ← Pd.iloc df 0; b ← Pd.iloc df (-1);
         Some (VFloat (weight a - weight b))
       else Some (VInt 0));
    bmi_trend ←
      (c1 ← (if (1 <? Pd.len df)%Z then
               a ← Pd.iloc df 0; b ← Pd.iloc df (-1);
               Some (Py.lt (bmi a) (bmi b))
             else Some false);
       if c1 : bool then Some (VStr "Increasing")
       else
         c2 ← (if (1 <? Pd.len df)%Z then
                 a ← Pd.iloc df 0; b ← Pd.iloc df (-1);
                 Some (Py.gt (bmi a) (bmi b))
               else Some false);
         if c2 : bool then Some (VStr "Decreasing")
         else Some (VStr "No trend"));
    Some (<["total_records" := total_records]>
          (<["current_bmi" := current_bmi]>
          (<["average_bmi" := average_bmi]>
          (<["min_bmi" := min_bmi]>
          (<["max_bmi" := max_bmi]>
          (<["weight_change" := weight_change]>
          (<["bmi_trend" := bmi_trend]> ∅))))))).

(** The trend string, as the conditional expression of the source picks
    it from the first and the last row. *)
Definition trend_of (n : Z) (first_bmi last_bmi : Q) : string :=
  if (1 <? n)%Z && Py.lt first_bmi last_bmi then "Increasing"
  else if (1 <? n)%Z && Py.gt first_bmi last_bmi then "Decreasing"
  else "No trend".

(** The scenario of the specification, most recent first.  It gives the BMI,
    the weight and the day of each record; the other columns are filled in. *)
Definition scenario : DataFrame :=
  [ mkRow 68 1.76 22.0 "Normal weight" 3;
    mkRow 70 1.73 23.5 "Normal weight" 2;
    mkRow 71 1.72 24.0 "Normal weight" 1 ].

(** ** The password hash, [hash_password]

    [hashlib.sha256] is SHA-256 as FIPS 180-4 defines it, on 32-bit words
    held in [Z]. *)

Module Hashlib.

Definition wrap (x : Z) : Z := x mod 2 ^ 32.

Definition rotr (n x : Z) : Z :=
  Z.lor (Z.shiftr x n) (wrap (Z.shiftl x (32 - n))).

Definition ch (x y z : Z) : Z :=
  Z.lxor (Z.land x y) (Z.land (Z.lxor x (2 ^ 32 - 1)) z).

Definition maj (x y z : Z) : Z :=
  Z.lxor (Z.lxor (Z.land x y) (Z.land x z)) (Z.land y z).

Definition big_sigma0 (x : Z) : Z :=
  Z.lxor (Z.lxor (rotr 2 x) (rotr 13 x)) (rotr 22 x).

Definition big_sigma1 (x : Z) : Z :=
  Z.lxor (Z.lxor (rotr 6 x) (rotr 11 x)) (rotr 25 x).

Definition small_sigma0 (x : Z) : Z :=
  Z.lxor (Z.lxor (rotr 7 x) (rotr 18 x)) (Z.shiftr x 3).

Definition small_sigma1 (x : Z) : Z :=
  Z.lxor (Z.lxor (rotr 17 x) (rotr 19 x)) (Z.shiftr x 10).

(** The constants are the first 32 bits of the fractional parts of the
    square and cube roots of the first primes. *)
Definition is_prime (p : Z) : bool :=
  forallb (fun d => negb (p mod d =? 0)%Z)
          (map Z.of_nat (seq 2 (Z.to_nat p - 2))).

Definition primes (n : nat) : list Z :=
  firstn n (List.filter is_prime (map Z.of_nat (seq 2 310))).

(** The largest [r] below [2 ^ bits] with [r ^ deg <= n], bit by bit. *)
Fixpoint iroot (bits : nat) (deg r n : Z) : Z :=
  match bits with
  | O => r
  | S b =>
      let r' := (r + 2 ^ Z.of_nat b)%Z in
      if (r' ^ deg <=? n)%Z then iroot b deg r' n else iroot b deg r n
  end.

Definition root_fraction (deg p : Z) : Z :=
  wrap (iroot 40 deg 0 (p * 2 ^ (32 * deg))).

Definition K : list Z := Eval vm_compute in map (root_fraction 3) (primes 64).

(** The eight working words. *)
Record words8 := W8 {
  wa : Z; wb : Z; wc : Z; wd : Z; we : Z; wf : Z; wg : Z; wh : Z
}.

Definition words8_of_list (l : list Z) : words8 :=
  match l with
  | [a; b; c; d; e; f; g; h] => W8 a b c d e f g h
  | _ => W8 0 0 0 0 0 0 0 0
  end.

Definition H0 : words8 :=
  Eval vm_compute in words8_of_list (map (root_fraction 2) (primes 8)).

Definition round (s : words8) (kw : Z * Z) : words8 :=
  let t1 := (wh s + big_sigma1 (we s) + ch (we s) (wf s) (wg s)
             + kw.1 + kw.2)%Z in
  let t2 := (big_sigma0 (wa s) + maj (wa s) (wb s) (wc s))%Z in
  W8 (wrap (t1 + t2)) (wa s) (wb s) (wc s)
     (wrap (wd s + t1)) (we s) (wf s) (wg s).

(** The message schedule: [n] more words after the sixteen of the block. *)
Fixpoint extend (n : nat) (w : list Z) : list Z :=
  match n with
  | O => w
  | S n' =>
      let t := length w in
      let x := wrap (small_sigma1 (nth (t - 2) w 0) + nth (t - 7) w 0
                     + small_sigma0 (nth (t - 15) w 0) + nth (t - 16) w 0)%Z in
      extend n' (w ++ [x])
  end.

Definition compress (s : words8) (block : list Z) : words8 :=
  let r := fold_left round (combine K (extend 48 block)) s in
  W8 (wrap (wa s + wa r)) (wrap (wb s + wb r)) (wrap (wc s + wc r))
     (wrap (wd s + wd r)) (wrap (we s + we r)) (wrap (wf s + wf r))
     (wrap (wg s + wg r)) (wrap (wh s + wh r)).

(** The [n] big-endian bytes of [x]. *)
Fixpoint be_bytes (n : nat) (x : Z) : list Z :=
  match n with
  | O => []
  | S n' => (Z.shiftr x (8 * Z.of_nat n') mod 256)%Z :: be_bytes n' x
  end.

Definition be_word (bytes : list Z) : Z :=
  fold_left (fun acc b => (acc * 256 + b)%Z) bytes 0%Z.

(** Padding: a one bit, zeros up to 56 modulo 64 bytes, the bit length. *)
Definition pad (msg : list Z) : list Z :=
  let len := Z.of_nat (length msg) in
  msg ++ [128%Z] ++ replicate (Z.to_nat ((55 - len) mod 64)) 0%Z
      ++ be_bytes 8 (8 * len).

(** Consecutive groups of [k] elements. *)
Fixpoint chunks {A} (fuel k : nat) (l : list A) : list (list A) :=
  match fuel, l with
  | O, _ | _, [] => []
  | S f, _ => firstn k l :: chunks f k (skipn k l)
  end.

Definition digest_words (msg : list Z) : words8 :=
  let p := pad msg in
  let ws := map be_word (chunks (length p) 4 p) in
  fold_left compress (chunks (length ws) 16 ws) H0.

Definition hex_digit (n : Z) : ascii :=
  nth (Z.to_nat n) (String.list_ascii_of_string "0123456789abcdef") "0"%char.

Definition hex8 (w : Z) : list ascii :=
  map (fun i => hex_digit (Z.shiftr w (4 * Z.of_nat i) mod 16)%Z)
      [7; 6; 5; 4; 3; 2; 1; 0]%nat.

Definition bytes_of_string (s : string) : list Z :=
  map (fun a => Z.of_N (N_of_ascii a)) (String.list_ascii_of_string s).

(** [hashlib.sha256(data).hexdigest()] *)
Definition sha256_hexdigest (data : string) : string :=
  let s := digest_words (bytes_of_string data) in
  String.string_of_list_ascii
    (hex8 (wa s) ++ hex8 (wb s) ++ hex8 (wc s) ++ hex8 (wd s) ++
     hex8 (we s) ++ hex8 (wf s) ++ hex8 (wg s) ++ hex8 (wh s)).

End Hashlib.

(** A Python [str] is held as the bytes of its UTF-8 encoding, which is
    what [password.encode()] hands to the hash. *)
Definition hash_password (password : string) : string :=
  Hashlib.sha256_hexdigest password.

(** ** The database, [bmi_data.db]

    The two tables of [init_database], as the rows they hold.  SQLite's
    [AUTOINCREMENT] gives a new row an id one above the largest the table
    has ever had, kept here as the table's sequence number;
    [CURRENT_TIMESTAMP] is the clock at the insertion, passed in as [now]
    (seconds). *)

Module users.

Record row := mk {
  id : Z;
  username : string;
  password_hash : string;
  created_at : Z
}.

End users.

Module bmi_records.

(** [data] holds the columns weight, height, bmi, category and
    recorded_at, the ones [get_user_bmi_history] selects. *)
Record row := mk {
  id : Z;
  user_id : Z;
  data : Row
}.

End bmi_records.

Record Database := mkDatabase {
  users_rows : list users.row;
  users_seq : Z;
  bmi_records_rows : list bmi_records.row;
  bmi_records_seq : Z
}.

Definition empty_database : Database := mkDatabase [] 0 [] 0.

(** [init_database]: both statements are [CREATE TABLE IF NOT EXISTS];
    a file that has no tables yet ([None]) gets them empty, one that has
    them is left as it is. *)
Definition init_database (file : option Database) : Database :=
  match file with
  | None => empty_database
  | Some db => db
  end.

(** [create_user]: the [UNIQUE] constraint on [username] raises
    [sqlite3.IntegrityError], which is caught and gives [False] with the
    transaction rolled back. *)
Definition create_user (db : Database) (now : Z) (username password : string)
  : Database * bool :=
  let password_hash := hash_password password in
  if existsb (fun u => String.eqb (users.username u) username) (users_rows db)
  then (db, false)
  else
    let id := (users_seq db + 1)%Z in
    (mkDatabase (users_rows db ++ [users.mk id username password_hash now]) id
                (bmi_records_rows db) (bmi_records_seq db),
     true).

(** [authenticate_user]: [fetchone] gives the first row the query
    matches, or [None]; a row is a non-empty tuple, hence true in the
    conditional expression that takes its first field. *)
Definition authenticate_user (db : Database) (username password : string)
  : option Z :=
  let password_hash := hash_password password in
  result ← List.find (fun u => String.eqb (users.username u) username
                               && String.eqb (users.password_hash u) password_hash)
                     (users_rows db);
  Some (users.id result).

(** [save_bmi_record]: the foreign key on [user_id] is declared but, as
    the connection never turns [PRAGMA foreign_keys] on, not checked. *)
Definition save_bmi_record (db : Database) (now : Z) (user_id : Z)
    (weight height bmi : Q) (category : string) : Database :=
  let id := (bmi_records_seq db + 1)%Z in
  mkDatabase (users_rows db) (users_seq db)
             (bmi_records_rows db
                ++ [bmi_records.mk id user_id (mkRow weight height bmi category now)])
             id.

(** [ORDER BY recorded_at DESC]: no row comes before a more recent one. *)
Definition recorded_desc (a b : Row) : Prop := (recorded_at b <= recorded_at a)%Z.

#[global] Instance recorded_desc_dec : RelDecision recorded_desc.
Proof. intros a b. unfold recorded_desc. apply _. Defined.

(** [get_user_bmi_history]: the rows of the user, most recent first.  The
    order among rows of the same second, which SQL leaves open, is the
    one the sort happens to give.  [pd.to_datetime] changes the type of
    the column, not its order. *)
Definition get_user_bmi_history (db : Database) (user_id : Z) : DataFrame :=
  merge_sort recorded_desc
    (map bmi_records.data
       (List.filter (fun r => (bmi_records.user_id r =? user_id)%Z)
                    (bmi_records_rows db))).

(** ** The Streamlit application, [main]

    [st.session_state] carries the logged-in user from one run of the
    script to the next; a run handles the one widget that fired. *)

Record SessionState := mkSession {
  user_id : option Z;
  username : option string
}.

(** What a run shows: [st.success], [st.error], [st.info].  The f-string
    of the computed BMI is kept as its number. *)
Inductive Notice :=
| st_success (text : string)
| st_error (text : string)
| st_info (text : string)
| st_success_bmi (bmi : Q).

Module Truth.

(** The truth value of a [str]: false only when empty. *)
Definition of_str (s : string) : bool := negb (String.eqb s "").

(** The truth value of an [int] or [None]: false for [None] and [0]. *)
Definition of_id (o : option Z) : bool :=
  match o with
  | None => false
  | Some n => negb (n =? 0)%Z
  end.

End Truth.

(** The body under [if login_button:]. *)
Definition login_form (db : Database) (session : SessionState)
    (username_in password_in : string) : SessionState * list Notice :=
  if Truth.of_str username_in && Truth.of_str password_in then
    let uid := authenticate_user db username_in password_in in
    if Truth.of_id uid then
      (mkSession uid (Some username_in), [st_success "Login successful!"])
    else (session, [st_error "Invalid username or password"])
  else (session, [st_error "Please enter both username and password"]).

(** The body under [if register_button:]. *)
Definition register_form (db : Database) (now : Z)
    (new_username new_password confirm_password : string)
  : Database * list Notice :=
  if Truth.of_str new_username && Truth.of_str new_password
     && Truth.of_str confirm_password then
    if String.eqb new_password confirm_password then
      let '(db', created) := create_user db now new_username new_password in
      if created then
        (db', [st_success "Account created successfully! Please login."])
      else (db', [st_error "Username already exists"])
    else (db, [st_error "Passwords do not match"])
  else (db, [st_error "Please fill in all fields"]).

(** The body under [if st.sidebar.button("Logout"):]. *)
Definition logout (session : SessionState) : SessionState :=
  mkSession None None.

(** The body under [if st.button("Calculate BMI"):], for the logged-in
    user [uid]. *)
Definition calculate_button (db : Database) (now : Z) (uid : Z)
    (weight height : Q) : option (Database * list Notice) :=
  '(bmi, category) ← calculate_bmi weight height;
  if String.eqb category "Invalid height" then
    Some (db, [st_error "Height must be greater than zero."])
  else
    Some (save_bmi_record db now uid weight height bmi category,
          [st_success_bmi bmi;
           st_info ("Category: **" +:+ category +:+ "**");
           st_success "BMI record saved!"]).

(** [st.number_input]: the widget hands over a value within its
    [min_value] and [max_value], and holds no other. *)
Definition number_input (min_value max_value value : Q) : option Q :=
  if Py.le min_value value && Py.le value max_value then Some value else None.

(** The widget that fired in a run, with what it submits and, where a
    row is inserted, the clock. *)
Inductive Event :=
| Login (username_in password_in : string)
| Register (now : Z) (new_username new_password confirm_password : string)
| Logout
| Calculate (now : Z) (weight height : Q).

(** One run of [main] on the database file and the session: the login
    and register forms exist only while nobody is logged in, the sidebar
    and the pages only while somebody is.  [None] when the widget is not
    on the page, or the run raises. *)
Definition main (file : option Database) (session : SessionState) (ev : Event)
  : option (Database * SessionState * list Notice) :=
  let db := init_database file in
  match user_id session with
  | None =>
      match ev with
      | Login u p =>
          let '(session', out) := login_form db session u p in
          Some (db, session', out)
      | Register now u p c =>
          let '(db', out) := register_form db now u p c in
          Some (db', session, out)
      | _ => None
      end
  | Some uid =>
      match ev with
      | Logout => Some (db, logout session, [])
      | Calculate now w h =>
          weight ← number_input 1.0 300.0 w;
          height ← number_input 0.5 3.0 h;
          '(db', out) ← calculate_button db now uid weight height;
          Some (db', session, out)
      | _ => None
      end
  end.

(** ** What the schema and the application keep true *)

(** The constraints the schema declares: [username] is [UNIQUE], the ids
    are primary keys handed out by [AUTOINCREMENT], hence positive and no
    greater than the table's sequence number. *)
Definition Database_ok (db : Database) : Prop :=
  NoDup (map users.username (users_rows db)) /\
  NoDup (map users.id (users_rows db)) /\
  (0 <= users_seq db)%Z /\
  Forall (fun u => (0 < users.id u <= users_seq db)%Z) (users_rows db) /\
  NoDup (map bmi_records.id (bmi_records_rows db)) /\
  (0 <= bmi_records_seq db)%Z /\
  Forall (fun r => (0 < bmi_records.id r <= bmi_records_seq db)%Z)
         (bmi_records_rows db).

(** The session names nobody, or a user of the database under their own
    name. *)
Definition Session_ok (db : Database) (session : SessionState) : Prop :=
  match user_id session with
  | None => username session = None
  | Some uid =>
      exists u, In u (users_rows db) /\ users.id u = uid /\
                username session = Some (users.username u)
  end.

(** A stored record belongs to a user of the database and holds a weight
    and a height the widgets can hand over, with the BMI and the category
    that [calculate_bmi] gives them. *)
Definition Record_ok (db : Database) (r : bmi_records.row) : Prop :=
  (exists u, In u (users_rows db) /\ users.id u = bmi_records.user_id r) /\
  (1 <= weight (bmi_records.data r) /\ weight (bmi_records.data r) <= 300) /\
  (0.5 <= height (bmi_records.data r) /\ height (bmi_records.data r) <= 3) /\
  calculate_bmi (weight (bmi_records.data r)) (height (bmi_records.data r))
    = Some (bmi (bmi_records.data r), category (bmi_records.data r)) /\
  category (bmi_records.data r) <> "Invalid height"%string.

Definition App_ok (db : Database) (session : SessionState) : Prop :=
  Database_ok db /\ Session_ok db session /\
  Forall (Record_ok db) (bmi_records_rows db).

(** The digits of a hexadecimal digest. *)
Definition hex_chars : list ascii :=
  String.list_ascii_of_string "0123456789abcdef".

(** The keys of the dictionary literal of [get_bmi_statistics]. *)
Definition statistics_keys : gset string :=
  list_to_set ["total_records"; "current_bmi"; "average_bmi"; "min_bmi";
               "max_bmi"; "weight_change"; "bmi_trend"]%string.

(** ** The specification's words

    What the specification says of the results, written down independently
    of the code above. *)

(** [v] is [q] rounded to two decimal places, half-way cases to even: [v]
    is a whole number of hundredths, no further than half a hundredth from
    [q], and an even number of hundredths when exactly half a hundredth
    away. *)
Definition rounded_to_2dp (q v : Q) : Prop :=
  exists n : Z,
    v == inject_Z n / 100 /\
    Qabs (q - v) <= 1 # 200 /\
    (Qabs (q - v) == 1 # 200 -> Z.even n = true).

(** The threshold table: half-open intervals, lower bound inclusive. *)
Definition threshold_table (b : Q) (c : string) : Prop :=
  (b < 18.5 -> c = "Underweight"%string) /\
  (18.5 <= b /\ b < 25 -> c = "Normal weight"%string) /\
  (25 <= b /\ b < 30 -> c = "Overweight"%string) /\
  (30 <= b -> c = "Obese"%string).




(** * Proofs *)

(** Reading a key of a dictionary literal. *)
Ltac dict_lookup :=
  repeat (rewrite lookup_insert_ne by discriminate);
  first [rewrite lookup_insert_eq | rewrite lookup_empty]; try reflexivity.

(** ** Facts about the Python primitives *)

Lemma py_lt_true (x y : Q) : Py.lt x y = true <-> x < y.
Proof.
  unfold Py.lt. rewrite Qlt_alt.
  destruct (x ?= y); split; congruence.
Qed.

Lemma py_gt_true (x y : Q) : Py.gt x y = true <-> y < x.
Proof.
  unfold Py.gt. rewrite Qgt_alt.
  destruct (x ?= y); split; congruence.
Qed.

Lemma py_le_true (x y : Q) : Py.le x y = true <-> x <= y.
Proof. apply Qle_bool_iff. Qed.

Lemma py_lt_false (x y : Q) : Py.lt x y = false <-> y <= x.
Proof.
  rewrite <- not_true_iff_false, py_lt_true. split; intros H; lra.
Qed.

Lemma py_gt_false (x y : Q) : Py.gt x y = false <-> x <= y.
Proof.
  rewrite <- not_true_iff_false, py_gt_true. split; intros H; lra.
Qed.

Lemma py_le_false (x y : Q) : Py.le x y = false <-> y < x.
Proof.
  rewrite <- not_true_iff_false, py_le_true. split; intros H; lra.
Qed.

Lemma truediv_nonzero (x y : Q) : ~ y == 0 -> Py.truediv x y = Some (x / y).
Proof.
  intros Hy. unfold Py.truediv.
  destruct (Qeq_bool y 0) eqn:E; [|reflexivity].
  apply Qeq_bool_iff in E. contradiction.
Qed.

Lemma pow_2 (x : Q) : Py.pow x 2 == x * x.
Proof. unfold Py.pow. simpl. reflexivity. Qed.

Lemma pow_2_pos (x : Q) : 0 < x -> 0 < Py.pow x 2.
Proof. intros Hx. rewrite pow_2. nra. Qed.

(** ** Rounding *)

(** [Qfloor] brackets its argument; the bounds are put in the form [lra]
    reads. *)
Lemma floor_bounds (x : Q) :
  inject_Z (Qfloor x) <= x /\ x < inject_Z (Qfloor x) + 1.
Proof.
  split; [apply Qfloor_le|].
  pose proof (Qlt_floor x) as H. rewrite inject_Z_plus in H. exact H.
Qed.

Lemma inject_Z_succ (n : Z) : inject_Z (n + 1) == inject_Z n + 1.
Proof. rewrite inject_Z_plus. reflexivity. Qed.

(** [round_half_even] lands within one half of its argument, and on the
    even neighbour when the argument is half-way. *)
Lemma round_half_even_near (x : Q) :
  Qabs (x - inject_Z (Py.round_half_even x)) <= 1 # 2.
Proof.
  unfold Py.round_half_even.
  destruct (floor_bounds x) as [Hlo Hhi].
  set (f := Qfloor x) in *.
  apply Qabs_Qle_condition.
  destruct (Qcompare_spec (x - inject_Z f) (1 # 2)) as [E|E|E].
  - destruct (Z.even f); [|rewrite inject_Z_succ]; lra.
  - lra.
  - rewrite inject_Z_succ. lra.
Qed.

Lemma round_half_even_tie (x : Q) :
  Qabs (x - inject_Z (Py.round_half_even x)) == 1 # 2 ->
  Z.even (Py.round_half_even x) = true.
Proof.
  unfold Py.round_half_even.
  destruct (floor_bounds x) as [Hlo Hhi].
  set (f := Qfloor x) in *.
  destruct (Qcompare_spec (x - inject_Z f) (1 # 2)) as [E|E|E].
  - intros _. destruct (Z.even f) eqn:Ev; [assumption|].
    rewrite Z.add_1_r, Z.even_succ, <- Z.negb_even, Ev. reflexivity.
  - intros H. rewrite Qabs_pos in H by lra. lra.
  - intros H. rewrite inject_Z_succ in H. rewrite Qabs_neg in H by lra. lra.
Qed.



Lemma round_2_unfold (x : Q) :
  Py.round x 2 == inject_Z (Py.round_half_even (x * 100)) / 100.
Proof. reflexivity. Qed.


(** The characterisation pins the rounded value down: two roundings of
    the same number agree. *)
Lemma rounded_to_2dp_unique (q v1 v2 : Q) :
  rounded_to_2dp q v1 -> rounded_to_2dp q v2 -> v1 == v2.
Proof.
  intros (n1 & E1 & B1 & T1) (n2 & E2 & B2 & T2).
  rewrite E1, E2 in *. clear E1 E2 v1 v2.
  unfold Qdiv in *. change (/ 100) with (1 # 100) in *.
  apply Qabs_Qle_condition in B1, B2.
  assert (Hle : (n1 <= n2 + 1)%Z).
  { rewrite Zle_Qle, inject_Z_succ. lra. }
  assert (Hge : (n2 <= n1 + 1)%Z).
  { rewrite Zle_Qle, inject_Z_succ. lra. }
  destruct (Z.eq_dec n1 n2) as [->|Hne]; [reflexivity|exfalso].
  assert (Hcase : n1 = (n2 + 1)%Z \/ n2 = (n1 + 1)%Z) by lia.
  destruct Hcase as [-> | ->].
  - rewrite inject_Z_succ in *.
    assert (Ev1 : Z.even (n2 + 1) = true).
    { apply T1. rewrite Qabs_neg by lra. lra. }
    assert (Ev2 : Z.even n2 = true).
    { apply T2. rewrite Qabs_pos by lra. lra. }
    rewrite Z.add_1_r, Z.even_succ, <- Z.negb_even, Ev2 in Ev1. discriminate.
  - rewrite inject_Z_succ in *.
    assert (Ev1 : Z.even n1 = true).
    { apply T1. rewrite Qabs_pos by lra. lra. }
    assert (Ev2 : Z.even (n1 + 1) = true).
    { apply T2. rewrite Qabs_neg by lra. lra. }
    rewrite Z.add_1_r, Z.even_succ, <- Z.negb_even, Ev1 in Ev2. discriminate.
Qed.

(** ** The evaluator *)

(** With a positive height the guard is passed, the division succeeds, and
    the category is the one whose test the unrounded quotient meets. *)
Lemma calculate_bmi_cases (w h : Q) :
  0 < h ->
  exists c : string,
    calculate_bmi w h = Some (Py.round (w / h ^ 2) 2, c) /\
    ((w / h ^ 2 < 18.5 /\ c = "Underweight"%string) \/
     (18.5 <= w / h ^ 2 /\ w / h ^ 2 < 25 /\ c = "Normal weight"%string) \/
     (25 <= w / h ^ 2 /\ w / h ^ 2 < 30 /\ c = "Overweight"%string) \/
     (30 <= w / h ^ 2 /\ c = "Obese"%string)).
Proof.
  intros Hh. unfold calculate_bmi.
  assert (Hle : Py.le h 0 = false) by (apply py_le_false; exact Hh).
  rewrite Hle.
  pose proof (pow_2_pos h Hh) as Hp.
  rewrite truediv_nonzero by lra. unfold Py.pow in *. cbn [mbind option_bind].
  set (q := w / h ^ 2).
  destruct (Py.lt q 18.5) eqn:L1.
  { apply py_lt_true in L1. eexists; split; [reflexivity|]. left. auto. }
  apply py_lt_false in L1.
  destruct (Py.le 18.5 q) eqn:G1; [|apply py_le_false in G1; lra].
  destruct (Py.lt q 25) eqn:L2; cbn [andb].
  { apply py_lt_true in L2. eexists; split; [reflexivity|]. right; left. auto. }
  apply py_lt_false in L2.
  destruct (Py.le 25 q) eqn:G2; [|apply py_le_false in G2; lra].
  destruct (Py.lt q 30) eqn:L3; cbn [andb].
  { apply py_lt_true in L3. eexists; split; [reflexivity|].
    right; right; left. auto. }
  apply py_lt_false in L3.
  eexists; split; [reflexivity|]. right; right; right. auto.
Qed.


(** The table names one category per value. *)
Lemma threshold_table_functional (q : Q) (c1 c2 : string) :
  threshold_table q c1 -> threshold_table q c2 -> c1 = c2.
Proof.
  intros (A1 & A2 & A3 & A4) (B1 & B2 & B3 & B4).
  destruct (Qlt_le_dec q 18.5) as [H|H]; [rewrite A1, B1 by lra; reflexivity|].
  destruct (Qlt_le_dec q 25) as [H'|H'];
    [rewrite A2, B2 by (split; lra); reflexivity|].
  destruct (Qlt_le_dec q 30) as [H''|H''];
    [rewrite A3, B3 by (split; lra); reflexivity|].
  rewrite A4, B4 by lra. reflexivity.
Qed.





(** C4: for every weight and every height <= 0, [calculate_bmi] raises
    nothing and returns the value 0.0 with the category "Invalid height". *)
Theorem calculate_bmi_invalid_height (w h : Q) :
  h <= 0 -> calculate_bmi w h = Some (0, "Invalid height"%string).
Proof.
  intros Hh. unfold calculate_bmi.
  apply py_le_true in Hh. rewrite Hh. reflexivity.
Qed.

Lemma calculate_bmi_invalid_height_witness :
  calculate_bmi 70 (-1.70) = Some (0, "Invalid height"%string).
Proof.
  apply (calculate_bmi_invalid_height 70 (-1.70)). unfold Qle; simpl; lia.
Defined.







(** ** The aggregator *)

Lemma iloc_first (r : Row) (rest : list Row) : Pd.iloc (r :: rest) 0 = Some r.
Proof. reflexivity. Qed.

(** [df.iloc[-1]] is the last row of a frame that has one. *)
Lemma iloc_last (df : DataFrame) : df <> [] -> Pd.iloc df (-1) = last df.
Proof.
  intros Hne. unfold Pd.iloc, Pd.len.
  assert (Hlen : (0 < length df)%nat) by (destruct df; [congruence | simpl; lia]).
  destruct (Z.leb_spec 0 (-1)) as [H|_]; [lia|].
  destruct (Z.leb_spec (- Z.of_nat (length df)) (-1)) as [_|H]; [|lia].
  rewrite last_lookup. f_equal. lia.
Qed.

Lemma last_is_Some (r : Row) (rest : list Row) : is_Some (last (r :: rest)).
Proof. rewrite last_lookup. apply lookup_lt_is_Some. simpl. lia. Qed.

(** On a frame with rows nothing raises, and every key is set. *)
Lemma get_bmi_statistics_rows (r : Row) (rest : list Row) (oldest : Row) :
  last (r :: rest) = Some oldest ->
  exists (avg mn mx : Q),
    Pd.mean (Pd.col_bmi (r :: rest)) = Some avg /\
    Pd.min (Pd.col_bmi (r :: rest)) = Some mn /\
    Pd.max (Pd.col_bmi (r :: rest)) = Some mx /\
    get_bmi_statistics (r :: rest) =
      Some (<["total_records" := VInt (Pd.len (r :: rest))]>
           (<["current_bmi" := VFloat (bmi r)]>
           (<["average_bmi" := VFloat avg]>
           (<["min_bmi" := VFloat mn]>
           (<["max_bmi" := VFloat mx]>
           (<["weight_change" :=
                if (1 <? Pd.len (r :: rest))%Z
                then VFloat (weight r - weight oldest) else VInt 0]>
           (<["bmi_trend" :=
                VStr (trend_of (Pd.len (r :: rest)) (bmi r) (bmi oldest))]>
              ∅))))))).
Proof.
  intros Hlast.
  assert (Hl : Pd.iloc (r :: rest) (-1) = Some oldest)
    by (rewrite iloc_last by discriminate; exact Hlast).
  unfold get_bmi_statistics, trend_of.
  cbn [Pd.empty]. rewrite iloc_first, Hl.
  set (df := r :: rest) in *.
  eexists _, _, _. do 3 (split; [reflexivity|]).
  cbn [mbind option_bind fmap option_fmap option_map Pd.mean Pd.min Pd.max
       Pd.col_bmi map].
  destruct (1 <? Pd.len df)%Z; cbn [andb mbind option_bind].
  - destruct (Py.lt (bmi r) (bmi oldest)); [reflexivity|].
    destruct (Py.gt (bmi r) (bmi oldest)); reflexivity.
  - reflexivity.
Qed.

(** *** Column aggregates *)



Section Extremum.

(** [better] decides an order [ord]: the running value of [Pd.pick] is
    then an [ord]-least value. *)
Variable better : Q -> Q -> bool.
Variable ord : Q -> Q -> Prop.
Hypothesis ord_refl : forall x, ord x x.
Hypothesis ord_trans : forall x y z, ord x y -> ord y z -> ord x z.
Hypothesis better_true : forall y m, better y m = true -> ord y m.
Hypothesis better_false : forall y m, better y m = false -> ord m y.




End Extremum.



(** *** The statistics dictionary *)

(** C5: on the empty series [get_bmi_statistics] raises nothing and
    returns the empty dictionary: no field is set. *)
Theorem get_bmi_statistics_empty :
  get_bmi_statistics [] = Some ∅ /\
  forall key : string, (get_bmi_statistics [] ≫= (.!! key)) = None.
Proof.
  split; [reflexivity|].
  intros key. cbn. apply lookup_empty.
Qed.



(** C6: for every non-empty series, most recent first, weight_change is
    the weight of the first record minus the weight of the last when the
    series has more than one record, and 0 when it has exactly one; it is
    positive exactly when the most recent weight is above the oldest. *)
Theorem get_bmi_statistics_weight_change (df : DataFrame) (newest oldest : Row) :
  head df = Some newest -> last df = Some oldest ->
  exists stats : gmap string value,
    get_bmi_statistics df = Some stats /\
    ((1 < length df)%nat ->
       stats !! "weight_change" = Some (VFloat (weight newest - weight oldest)) /\
       (0 < weight newest - weight oldest <-> weight oldest < weight newest)) /\
    (length df = 1%nat -> stats !! "weight_change" = Some (VInt 0)).
Proof.
  destruct df as [|r rest]; [discriminate|]. intros [= ->] Hlast.
  destruct (get_bmi_statistics_rows newest rest oldest Hlast)
    as (avg & mn & mx & _ & _ & _ & E).
  eexists. split; [exact E|]. unfold Pd.len. split.
  - intros Hlen. split; [|split; intros H; lra].
    dict_lookup.
    destruct (Z.ltb_spec 1 (Z.of_nat (length (newest :: rest)))); [reflexivity | lia].
  - intros Hlen. dict_lookup. rewrite Hlen. reflexivity.
Qed.

Lemma get_bmi_statistics_weight_change_witness :
  exists stats : gmap string value,
    get_bmi_statistics scenario = Some stats /\
    ((1 < length scenario)%nat ->
       stats !! "weight_change" = Some (VFloat (68 - 71)) /\
       (0 < 68 - 71 <-> 71 < 68)) /\
    (length scenario = 1%nat -> stats !! "weight_change" = Some (VInt 0)).
Proof.
  apply (get_bmi_statistics_weight_change scenario
           (mkRow 68 1.76 22.0 "Normal weight" 3)
           (mkRow 71 1.72 24.0 "Normal weight" 1)); reflexivity.
Defined.

(** C7: for a series of exactly one record r, total_records is 1,
    current_bmi, average_bmi, min_bmi and max_bmi are all the BMI of r,
    weight_change is 0 and bmi_trend is "No trend". *)
Theorem get_bmi_statistics_single (r : Row) :
  exists stats : gmap string value,
    get_bmi_statistics [r] = Some stats /\
    stats !! "total_records" = Some (VInt 1) /\
    stats !! "current_bmi" = Some (VFloat (bmi r)) /\
    (exists avg : Q, stats !! "average_bmi" = Some (VFloat avg) /\ avg == bmi r) /\
    stats !! "min_bmi" = Some (VFloat (bmi r)) /\
    stats !! "max_bmi" = Some (VFloat (bmi r)) /\
    stats !! "weight_change" = Some (VInt 0) /\
    stats !! "bmi_trend" = Some (VStr "No trend").
Proof.
  destruct (get_bmi_statistics_rows r [] r eq_refl)
    as (avg & mn & mx & Havg & Hmn & Hmx & E).
  injection Havg as <-. injection Hmn as <-. injection Hmx as <-.
  eexists. split; [exact E|].
  split; [dict_lookup|]. split; [dict_lookup|].
  split.
  { eexists. split; [dict_lookup|]. unfold Pd.sum. simpl. field. }
  repeat split; dict_lookup.
Qed.

(** The trend the code reports, in terms of the two BMI values it
    compares: with more than one record, "Increasing" exactly when the
    first (most recent) BMI is below the last (oldest) one, "Decreasing"
    exactly when it is above, "No trend" when they are equal. *)
Lemma get_bmi_statistics_trend_as_coded (df : DataFrame) (newest oldest : Row) :
  head df = Some newest -> last df = Some oldest -> (1 < length df)%nat ->
  exists stats : gmap string value,
    get_bmi_statistics df = Some stats /\
    (bmi newest < bmi oldest -> stats !! "bmi_trend" = Some (VStr "Increasing")) /\
    (bmi oldest < bmi newest -> stats !! "bmi_trend" = Some (VStr "Decreasing")) /\
    (bmi newest == bmi oldest -> stats !! "bmi_trend" = Some (VStr "No trend")).
Proof.
  destruct df as [|r rest]; [discriminate|]. intros [= ->] Hlast Hlen.
  destruct (get_bmi_statistics_rows newest rest oldest Hlast)
    as (avg & mn & mx & _ & _ & _ & E).
  eexists. split; [exact E|]. unfold trend_of, Pd.len.
  destruct (Z.ltb_spec 1 (Z.of_nat (length (newest :: rest)))) as [_|H]; [|lia].
  cbn [andb].
  repeat split; intros Hc; dict_lookup.
  - apply py_lt_true in Hc. rewrite Hc. reflexivity.
  - assert (H1 : Py.lt (bmi newest) (bmi oldest) = false) by (apply py_lt_false; lra).
    apply py_gt_true in Hc. rewrite H1, Hc. reflexivity.
  - assert (H1 : Py.lt (bmi newest) (bmi oldest) = false) by (apply py_lt_false; lra).
    assert (H2 : Py.gt (bmi newest) (bmi oldest) = false) by (apply py_gt_false; lra).
    rewrite H1, H2. reflexivity.
Qed.

(** C1, where the code departs from it: on the series of the
    specification's scenario, whose most recent BMI (22.0) is less than
    its oldest (24.0), [get_bmi_statistics] returns bmi_trend =
    "Increasing", not the "Decreasing" of the claim. *)
Theorem get_bmi_statistics_trend_scenario :
  (bmi <$> Pd.iloc scenario 0) = Some 22.0 /\
  (bmi <$> Pd.iloc scenario (-1)) = Some 24.0 /\
  22.0 < 24.0 /\
  (get_bmi_statistics scenario ≫= (.!! "bmi_trend")) = Some (VStr "Increasing").
Proof.
  split; [reflexivity|]. split; [reflexivity|]. split; [reflexivity|].
  vm_compute. reflexivity.
Qed.

(** *** The scenarios of the specification *)

Example calculate_bmi_70_170 :
  calculate_bmi 70 1.70 = Some (Py.round (70 / 1.70 ^ 2) 2, "Normal weight"%string)
  /\ Py.round (70 / 1.70 ^ 2) 2 == 24.22.
Proof. split; [reflexivity | vm_compute; reflexivity]. Qed.

Example scenario_statistics :
  exists (stats : gmap string value) (avg : Q),
    get_bmi_statistics scenario = Some stats /\
    stats !! "total_records" = Some (VInt 3) /\
    stats !! "current_bmi" = Some (VFloat 22.0) /\
    stats !! "average_bmi" = Some (VFloat avg) /\ Py.round avg 2 == 23.17 /\
    stats !! "min_bmi" = Some (VFloat 22.0) /\
    stats !! "max_bmi" = Some (VFloat 24.0) /\
    stats !! "weight_change" = Some (VFloat (68 - 71)) /\ 68 - 71 == -3.
Proof.
  destruct (get_bmi_statistics_rows (mkRow 68 1.76 22.0 "Normal weight" 3)
              [mkRow 70 1.73 23.5 "Normal weight" 2;
               mkRow 71 1.72 24.0 "Normal weight" 1]
              (mkRow 71 1.72 24.0 "Normal weight" 1) eq_refl)
    as (avg & mn & mx & Havg & Hmn & Hmx & E).
  injection Havg as <-. injection Hmn as <-. injection Hmx as <-.
  eexists _, _. split; [exact E|].
  repeat split; try dict_lookup.
Qed.

(** * Further properties of the code *)

(** ** Rounding is monotone *)

Lemma round_half_even_mono (x y : Q) :
  x <= y -> (Py.round_half_even x <= Py.round_half_even y)%Z.
Proof.
  intros Hxy.
  pose proof (round_half_even_near x) as Hx.
  pose proof (round_half_even_near y) as Hy.
  pose proof (round_half_even_tie x) as Tx.
  pose proof (round_half_even_tie y) as Ty.
  set (n := Py.round_half_even x) in *. set (m := Py.round_half_even y) in *.
  apply Qabs_Qle_condition in Hx, Hy.
  destruct (Z_le_gt_dec n m) as [H|H]; [exact H|exfalso].
  assert (Hn : inject_Z m + 1 <= inject_Z n).
  { rewrite <- inject_Z_succ, <- Zle_Qle. lia. }
  assert (En : Z.even n = true).
  { apply Tx. rewrite Qabs_neg by lra. lra. }
  assert (Em : Z.even m = true).
  { apply Ty. rewrite Qabs_pos by lra. lra. }
  assert (Hm : n = (m + 1)%Z).
  { apply Z.le_antisymm; [|lia]. rewrite Zle_Qle, inject_Z_succ. lra. }
  rewrite Hm, Z.add_1_r, Z.even_succ, <- Z.negb_even, Em in En. discriminate.
Qed.

Lemma round_2_mono (x y : Q) : x <= y -> Py.round x 2 <= Py.round y 2.
Proof.
  intros Hxy. rewrite !round_2_unfold.
  assert (H : (Py.round_half_even (x * 100) <= Py.round_half_even (y * 100))%Z)
    by (apply round_half_even_mono; lra).
  rewrite Zle_Qle in H.
  unfold Qdiv. change (/ 100) with (1 # 100). lra.
Qed.


(** ** More on the evaluator *)

Lemma quotient_mono_weight (w1 w2 h : Q) :
  0 < h -> w1 <= w2 -> w1 / h ^ 2 <= w2 / h ^ 2.
Proof.
  intros Hh Hw. pose proof (pow_2_pos h Hh) as Hp. unfold Py.pow in Hp.
  unfold Qdiv. apply Qmult_le_compat_r; [exact Hw|].
  apply Qinv_le_0_compat. lra.
Qed.

Lemma quotient_anti_height (w h1 h2 : Q) :
  0 <= w -> 0 < h1 -> h1 <= h2 -> w / h2 ^ 2 <= w / h1 ^ 2.
Proof.
  intros Hw H1 H12.
  assert (H2 : 0 < h2) by lra.
  pose proof (pow_2_pos h1 H1) as P1. pose proof (pow_2_pos h2 H2) as P2.
  pose proof (pow_2 h1) as E1. pose proof (pow_2 h2) as E2.
  unfold Py.pow in *.
  assert (Hsq : h1 ^ 2 <= h2 ^ 2) by (rewrite E1, E2; nra).
  set (t := w / h1 ^ 2).
  assert (Ht : w == t * h1 ^ 2) by (unfold t; field; lra).
  assert (Ht0 : 0 <= t).
  { unfold t, Qdiv. apply Qmult_le_0_compat; [exact Hw|].
    apply Qinv_le_0_compat. lra. }
  apply Qle_shift_div_r; [exact P2|].
  rewrite Ht at 1. rewrite (Qmult_comm t (h1 ^ 2)), (Qmult_comm t (h2 ^ 2)).
  apply Qmult_le_compat_r; assumption.
Qed.









(** X5: for a weight and a height the two number inputs can hand over
    (1 to 300 kg, 0.5 to 3 m), [calculate_bmi] returns a value between
    0.11 and 1200 and never the "Invalid height" sentinel. *)
Theorem calculate_bmi_within_inputs (w h : Q) :
  1 <= w -> w <= 300 -> 0.5 <= h -> h <= 3 ->
  exists (v : Q) (c : string),
    calculate_bmi w h = Some (v, c) /\
    0.11 <= v /\ v <= 1200 /\
    c <> "Invalid height"%string.
Proof.
  intros W1 W2 H1 H2. assert (Hh : 0 < h) by lra.
  destruct (calculate_bmi_cases w h Hh) as (c & E & Hc).
  exists (Py.round (w / h ^ 2) 2), c. split; [exact E|].
  assert (Hlo : 1 / 3 ^ 2 <= w / h ^ 2).
  { apply Qle_trans with (y := 1 / h ^ 2).
    - apply quotient_anti_height; lra.
    - apply quotient_mono_weight; lra. }
  assert (Hhi : w / h ^ 2 <= 300 / 0.5 ^ 2).
  { apply Qle_trans with (y := 300 / h ^ 2).
    - apply quotient_mono_weight; lra.
    - apply quotient_anti_height; lra. }
  split; [|split].
  - apply Qle_trans with (y := Py.round (1 / 3 ^ 2) 2); [vm_compute; discriminate|].
    apply round_2_mono, Hlo.
  - apply Qle_trans with (y := Py.round (300 / 0.5 ^ 2) 2); [|vm_compute; discriminate].
    apply round_2_mono, Hhi.
  - destruct Hc as [(_ & ->) | [(_ & _ & ->) | [(_ & _ & ->) | (_ & ->)]]];
      discriminate.
Qed.

Lemma calculate_bmi_within_inputs_witness :
  exists (v : Q) (c : string),
    calculate_bmi 70 1.70 = Some (v, c) /\
    0.11 <= v /\ v <= 1200 /\
    c <> "Invalid height"%string.
Proof.
  apply (calculate_bmi_within_inputs 70 1.70); unfold Qle; simpl; lia.
Defined.

(** ** More on the aggregator *)

(** X6: on a series with more than one record, bmi_trend is
    "Increasing" exactly when the BMI of the first (most recent) record
    is below that of the last (oldest), "Decreasing" exactly when it is
    above, and "No trend" exactly when the two are equal. *)
Theorem get_bmi_statistics_trend_rule (df : DataFrame) (newest oldest : Row) :
  head df = Some newest -> last df = Some oldest -> (1 < length df)%nat ->
  exists stats : gmap string value,
    get_bmi_statistics df = Some stats /\
    (stats !! "bmi_trend" = Some (VStr "Increasing") <-> bmi newest < bmi oldest) /\
    (stats !! "bmi_trend" = Some (VStr "Decreasing") <-> bmi oldest < bmi newest) /\
    (stats !! "bmi_trend" = Some (VStr "No trend") <-> bmi newest == bmi oldest).
Proof.
  intros Hh Hl Hlen.
  destruct (get_bmi_statistics_trend_as_coded df newest oldest Hh Hl Hlen)
    as (stats & E & Hi & Hd & Hn).
  exists stats. split; [exact E|].
  destruct (Q_dec (bmi newest) (bmi oldest)) as [[H|H]|H].
  - rewrite (Hi H). repeat split; intros H'; try exact H; try reflexivity;
      try discriminate H'; exfalso; lra.
  - rewrite (Hd H). repeat split; intros H'; try exact H; try reflexivity;
      try discriminate H'; exfalso; lra.
  - rewrite (Hn H). repeat split; intros H'; try exact H; try reflexivity;
      try discriminate H'; exfalso; lra.
Qed.

Lemma get_bmi_statistics_trend_rule_witness :
  exists stats : gmap string value,
    get_bmi_statistics scenario = Some stats /\
    (stats !! "bmi_trend" = Some (VStr "Increasing") <-> 22.0 < 24.0) /\
    (stats !! "bmi_trend" = Some (VStr "Decreasing") <-> 24.0 < 22.0) /\
    (stats !! "bmi_trend" = Some (VStr "No trend") <-> 22.0 == 24.0).
Proof.
  apply (get_bmi_statistics_trend_rule scenario
           (mkRow 68 1.76 22.0 "Normal weight" 3)
           (mkRow 71 1.72 24.0 "Normal weight" 1));
    [reflexivity | reflexivity | simpl; lia].
Defined.

(** X7: [get_bmi_statistics] never raises; its result has no key
    on the empty frame and exactly the seven keys of the literal on any
    other, so that the Statistics page finds every key it reads. *)
Theorem get_bmi_statistics_keys (df : DataFrame) :
  exists stats : gmap string value,
    get_bmi_statistics df = Some stats /\
    dom stats = if Pd.empty df then ∅ else statistics_keys.
Proof.
  destruct df as [|r rest].
  - exists ∅. split; [reflexivity|]. apply dom_empty_L.
  - destruct (last_is_Some r rest) as [oldest Hlast].
    destruct (get_bmi_statistics_rows r rest oldest Hlast)
      as (avg & mn & mx & _ & _ & _ & E).
    eexists. split; [exact E|].
    rewrite !dom_insert_L, dom_empty_L. cbn [Pd.empty].
    unfold statistics_keys. cbn [list_to_set foldr]. reflexivity.
Qed.











(** ** The password hash *)

Lemma hex_digit_in (n : Z) : In (Hashlib.hex_digit (n mod 16)) hex_chars.
Proof.
  unfold Hashlib.hex_digit. apply nth_In.
  pose proof (Z.mod_pos_bound n 16 eq_refl) as H.
  change (length _) with 16%nat. lia.
Qed.

Lemma hex8_chars (w : Z) :
  length (Hashlib.hex8 w) = 8%nat /\
  Forall (fun c => In c hex_chars) (Hashlib.hex8 w).
Proof.
  split; [reflexivity|].
  unfold Hashlib.hex8. apply Forall_map, Forall_forall.
  intros i _. apply hex_digit_in.
Qed.

Lemma length_string_of_list_ascii (l : list ascii) :
  String.length (String.string_of_list_ascii l) = length l.
Proof. induction l as [|c l IH]; simpl; [reflexivity | rewrite IH; reflexivity]. Qed.

(** X10: for every password, [hash_password] returns a string of exactly
    64 characters, each a lowercase hexadecimal digit. *)
Theorem hash_password_hex (password : string) :
  String.length (hash_password password) = 64%nat /\
  Forall (fun c => In c hex_chars)
         (String.list_ascii_of_string (hash_password password)).
Proof.
  unfold hash_password, Hashlib.sha256_hexdigest.
  set (s := Hashlib.digest_words _).
  rewrite length_string_of_list_ascii, String.list_ascii_of_string_of_list_ascii.
  split.
  - rewrite !length_app. reflexivity.
  - repeat (apply Forall_app; split); apply hex8_chars.
Qed.

(** SHA-256 of the test messages of the standard. *)
Example hash_password_abc :
  hash_password "abc"
  = "ba7816bf8f01cfea414140de5dae2223b00361a396177a9cb410ff61f20015ad"%string
  /\ hash_password ""
  = "e3b0c44298fc1c149afbf4c8996fb92427ae41e4649b934ca495991b7852b855"%string.
Proof. split; vm_compute; reflexivity. Qed.

(** ** The database *)

Lemma username_taken (rows : list users.row) (name : string) :
  existsb (fun u => String.eqb (users.username u) name) rows = true
  <-> In name (map users.username rows).
Proof.
  rewrite existsb_exists, in_map_iff. split.
  - intros (u & Hu & E). apply String.eqb_eq in E. exists u. auto.
  - intros (u & E & Hu). exists u. split; [exact Hu | apply String.eqb_eq, E].
Qed.

(** [create_user] on a taken and on a free username. *)
Lemma create_user_taken (db : Database) (now : Z) (name password : string) :
  In name (map users.username (users_rows db)) ->
  create_user db now name password = (db, false).
Proof.
  intros Hin. apply username_taken in Hin. unfold create_user.
  rewrite Hin. reflexivity.
Qed.

Lemma create_user_fresh (db : Database) (now : Z) (name password : string) :
  ~ In name (map users.username (users_rows db)) ->
  create_user db now name password
  = (mkDatabase
       (users_rows db
          ++ [users.mk (users_seq db + 1) name (hash_password password) now])
       (users_seq db + 1) (bmi_records_rows db) (bmi_records_seq db),
     true).
Proof.
  intros Hin. unfold create_user.
  destruct (existsb _ (users_rows db)) eqn:E; [|reflexivity].
  apply username_taken in E. contradiction.
Qed.

(** X11: [create_user] answers True exactly when the username is not yet
    in the table.  On False the database is unchanged; on True one row is
    appended, carrying the next id, the username, the hash of the
    password (not the password) and the time, and nothing else
    changes. *)
Theorem create_user_outcome (db : Database) (now : Z) (name password : string) :
  ((create_user db now name password).2 = true
     <-> ~ In name (map users.username (users_rows db))) /\
  ((create_user db now name password).2 = false
     -> (create_user db now name password).1 = db) /\
  ((create_user db now name password).2 = true
     -> users_rows (create_user db now name password).1
          = users_rows db
              ++ [users.mk (users_seq db + 1) name (hash_password password) now]
        /\ bmi_records_rows (create_user db now name password).1
          = bmi_records_rows db).
Proof.
  destruct (in_dec String.string_dec name (map users.username (users_rows db)))
    as [Hin|Hout].
  - rewrite (create_user_taken db now name password Hin). cbn [fst snd].
    split; [|split].
    + split; [discriminate | intros H; contradiction].
    + reflexivity.
    + discriminate.
  - rewrite (create_user_fresh db now name password Hout). cbn [fst snd].
    split; [|split].
    + split; [intros _; exact Hout | reflexivity].
    + discriminate.
    + intros _. split; reflexivity.
Qed.

Lemma create_user_outcome_witness :
  (create_user empty_database 5 "ann" "secret").2 = true /\
  users_rows (create_user empty_database 5 "ann" "secret").1
  = users_rows empty_database
      ++ [users.mk (users_seq empty_database + 1) "ann" (hash_password "secret") 5]
  /\ bmi_records_rows (create_user empty_database 5 "ann" "secret").1
  = bmi_records_rows empty_database.
Proof.
  split; [reflexivity|].
  apply (proj2 (proj2 (create_user_outcome empty_database 5 "ann" "secret"))).
  reflexivity.
Defined.

Lemma create_user_keeps_schema (db : Database) (now : Z) (name password : string) :
  Database_ok db -> Database_ok (create_user db now name password).1.
Proof.
  intros Hok.
  destruct (in_dec String.string_dec name (map users.username (users_rows db)))
    as [Hin|Hout].
  { rewrite (create_user_taken db now name password Hin). exact Hok. }
  rewrite (create_user_fresh db now name password Hout). cbn [fst].
  destruct Hok as (Hn & Hi & Hs & Hb & Hri & Hrs & Hrb).
  unfold Database_ok.
  cbn [users_rows users_seq bmi_records_rows bmi_records_seq].
  rewrite !map_app. cbn [map users.username users.id].
  split; [|split; [|split; [|split; [|split; [|split]]]]]; try assumption.
  - apply NoDup_app. split; [exact Hn|]. split; [|apply NoDup_singleton].
    intros x Hx Hx'. apply list_elem_of_In in Hx.
    apply list_elem_of_singleton in Hx'. subst x. contradiction.
  - apply NoDup_app. split; [exact Hi|]. split; [|apply NoDup_singleton].
    intros x Hx Hx'. apply list_elem_of_singleton in Hx'. subst x.
    apply list_elem_of_In, in_map_iff in Hx. destruct Hx as (u & Eu & Hu').
    rewrite Forall_forall in Hb. apply list_elem_of_In, Hb in Hu'. lia.
  - lia.
  - apply Forall_app. split.
    + eapply Forall_impl; [exact Hb|]. cbn. intros u Hu'. lia.
    + apply Forall_singleton. cbn. lia.
Qed.

Lemma save_bmi_record_keeps_schema (db : Database) (now uid : Z)
    (w h b : Q) (c : string) :
  Database_ok db -> Database_ok (save_bmi_record db now uid w h b c).
Proof.
  intros (Hn & Hi & Hs & Hb & Hri & Hrs & Hrb).
  unfold Database_ok, save_bmi_record.
  cbn [users_rows users_seq bmi_records_rows bmi_records_seq].
  rewrite map_app. cbn [map bmi_records.id].
  split; [|split; [|split; [|split; [|split; [|split]]]]]; try assumption.
  - apply NoDup_app. split; [exact Hri|]. split; [|apply NoDup_singleton].
    intros x Hx Hx'. apply list_elem_of_singleton in Hx'. subst x.
    apply list_elem_of_In, in_map_iff in Hx. destruct Hx as (r & Er & Hr').
    rewrite Forall_forall in Hrb. apply list_elem_of_In, Hrb in Hr'. lia.
  - lia.
  - apply Forall_app. split.
    + eapply Forall_impl; [exact Hrb|]. cbn. intros r Hr'. lia.
    + apply Forall_singleton. cbn. lia.
Qed.

Lemma empty_database_ok : Database_ok empty_database.
Proof.
  unfold Database_ok, empty_database. cbn.
  repeat split; try apply NoDup_nil_2; try apply Forall_nil_2; lia.
Qed.

(** X12: the constraints of the schema hold of the fresh database and
    are kept by [create_user] and by [save_bmi_record]: usernames stay
    unique, ids stay unique, positive and no greater than the sequence
    number of their table. *)
Theorem schema_constraints_kept :
  Database_ok (init_database None) /\
  (forall db now name password,
     Database_ok db -> Database_ok (create_user db now name password).1) /\
  (forall db now uid w h b c,
     Database_ok db -> Database_ok (save_bmi_record db now uid w h b c)).
Proof.
  split; [apply empty_database_ok|].
  split; [apply create_user_keeps_schema | apply save_bmi_record_keeps_schema].
Qed.

Lemma schema_constraints_kept_witness :
  Database_ok (create_user empty_database 5 "ann" "secret").1 /\
  Database_ok (save_bmi_record empty_database 9 1 70 1.70 24.22 "Normal weight").
Proof.
  split.
  - apply (proj1 (proj2 schema_constraints_kept)), (proj1 schema_constraints_kept).
  - apply (proj2 (proj2 schema_constraints_kept)), (proj1 schema_constraints_kept).
Defined.

(** *** Authentication *)

(** The test of the query of [authenticate_user], on one row. *)
Lemma credentials_match (u : users.row) (name password : string) :
  String.eqb (users.username u) name
  && String.eqb (users.password_hash u) (hash_password password) = true
  <-> users.username u = name /\
      users.password_hash u = hash_password password.
Proof. rewrite andb_true_iff, !String.eqb_eq. reflexivity. Qed.

(** An id that [authenticate_user] returns is that of a row with the
    credentials. *)
Lemma authenticate_user_Some (db : Database) (name password : string) (uid : Z) :
  authenticate_user db name password = Some uid ->
  exists u, In u (users_rows db) /\ users.id u = uid /\
            users.username u = name /\
            users.password_hash u = hash_password password.
Proof.
  unfold authenticate_user.
  destruct (List.find _ (users_rows db)) as [u|] eqn:F; [|discriminate].
  cbn [mbind option_bind]. intros [= <-].
  apply find_some in F. destruct F as [Hin Hm].
  apply credentials_match in Hm. exists u. tauto.
Qed.



Lemma find_unique {A} (f : A -> bool) (l : list A) (x : A) :
  In x l -> f x = true -> (forall y, In y l -> f y = true -> y = x) ->
  List.find f l = Some x.
Proof.
  intros Hin Hx Hu.
  destruct (List.find f l) as [y|] eqn:F.
  - apply find_some in F. destruct F as [Hy Hfy]. f_equal. apply Hu; assumption.
  - pose proof (find_none _ _ F x Hin) as H. congruence.
Qed.

Lemma username_unique (rows : list users.row) (u1 u2 : users.row) :
  NoDup (map users.username rows) -> In u1 rows -> In u2 rows ->
  users.username u1 = users.username u2 -> u1 = u2.
Proof.
  induction rows as [|r rows IH]; intros Hnd H1 H2 E; [destruct H1|].
  cbn [map] in Hnd. apply NoDup_cons in Hnd. destruct Hnd as [Hr Hnd].
  destruct H1 as [<-|H1], H2 as [<-|H2].
  - reflexivity.
  - exfalso. apply Hr. rewrite E. apply list_elem_of_In, in_map, H2.
  - exfalso. apply Hr. rewrite <- E. apply list_elem_of_In, in_map, H1.
  - apply IH; assumption.
Qed.

(** X14: in a database that meets the schema, whoever is in the users
    table authenticates with the password whose hash is stored, under
    their own id, wherever their row stands in the table. *)
Theorem authenticate_user_complete (db : Database) (u : users.row)
    (password : string) :
  Database_ok db -> In u (users_rows db) ->
  users.password_hash u = hash_password password ->
  authenticate_user db (users.username u) password = Some (users.id u).
Proof.
  intros (Hn & _) Hin Hp. unfold authenticate_user.
  rewrite (find_unique _ _ u Hin); [reflexivity | |].
  - apply credentials_match. auto.
  - intros y Hy Hm. apply credentials_match in Hm. destruct Hm as [Hm _].
    apply (username_unique (users_rows db)); assumption.
Qed.

Lemma authenticate_user_complete_witness :
  authenticate_user (create_user empty_database 5 "ann" "secret").1
    (users.username (users.mk 1 "ann" (hash_password "secret") 5)) "secret"
  = Some (users.id (users.mk 1 "ann" (hash_password "secret") 5)).
Proof.
  apply (authenticate_user_complete
           (create_user empty_database 5 "ann" "secret").1
           (users.mk 1 "ann" (hash_password "secret") 5) "secret").
  - apply create_user_keeps_schema, empty_database_ok.
  - left. reflexivity.
  - reflexivity.
Defined.

(** The credentials of a row appended under a free username find that
    row. *)
Lemma find_new_user (rows : list users.row) (id now : Z) (name password : string) :
  ~ In name (map users.username rows) ->
  List.find (fun u => String.eqb (users.username u) name
                      && String.eqb (users.password_hash u) (hash_password password))
            (rows ++ [users.mk id name (hash_password password) now])
  = Some (users.mk id name (hash_password password) now).
Proof.
  intros Hfresh. apply find_unique.
  - apply in_or_app. right. left. reflexivity.
  - apply credentials_match. auto.
  - intros y Hy Hm. apply credentials_match in Hm. destruct Hm as [Hm _].
    apply in_app_or in Hy. destruct Hy as [Hy|[Hy|[]]]; [|auto].
    exfalso. apply Hfresh. rewrite <- Hm. apply in_map, Hy.
Qed.

(** X15: registering and then logging in.  When [create_user] answers
    True, [authenticate_user] on the new database, with the same username
    and password, returns the id the new row was given. *)
Theorem create_user_then_authenticate (db : Database) (now : Z)
    (name password : string) :
  (create_user db now name password).2 = true ->
  authenticate_user (create_user db now name password).1 name password
  = Some (users_seq db + 1)%Z.
Proof.
  intros Hok.
  destruct (in_dec String.string_dec name (map users.username (users_rows db)))
    as [Hin|Hout].
  { rewrite (create_user_taken db now name password Hin) in Hok.
    discriminate Hok. }
  rewrite (create_user_fresh db now name password Hout). cbn [fst].
  unfold authenticate_user. cbn [users_rows].
  rewrite (find_new_user _ _ _ _ _ Hout). reflexivity.
Qed.

Lemma create_user_then_authenticate_witness :
  authenticate_user (create_user empty_database 5 "ann" "secret").1 "ann" "secret"
  = Some (users_seq empty_database + 1)%Z.
Proof.
  apply (create_user_then_authenticate empty_database 5 "ann" "secret").
  reflexivity.
Defined.

Lemma find_app_miss {A} (f : A -> bool) (l : list A) (x : A) :
  f x = false -> List.find f (l ++ [x]) = List.find f l.
Proof.
  intros Hx. induction l as [|y l IH]; cbn [app List.find].
  - rewrite Hx. reflexivity.
  - destruct (f y); [reflexivity | exact IH].
Qed.

(** X16: registering one user leaves the others as they were: after
    [create_user] for a username, every other username authenticates
    exactly as before, with any password. *)
Theorem create_user_keeps_others (db : Database) (now : Z)
    (name password other other_password : string) :
  other <> name ->
  authenticate_user (create_user db now name password).1 other other_password
  = authenticate_user db other other_password.
Proof.
  intros Hne.
  destruct (in_dec String.string_dec name (map users.username (users_rows db)))
    as [Hin|Hout].
  { rewrite (create_user_taken db now name password Hin). reflexivity. }
  rewrite (create_user_fresh db now name password Hout). cbn [fst].
  unfold authenticate_user. cbn [users_rows].
  rewrite find_app_miss; [reflexivity|].
  cbn [users.username]. apply andb_false_iff. left.
  apply String.eqb_neq. congruence.
Qed.

Lemma create_user_keeps_others_witness :
  authenticate_user
    (create_user (create_user empty_database 5 "ann" "secret").1 6 "bob" "hunter2").1
    "ann" "secret"
  = authenticate_user (create_user empty_database 5 "ann" "secret").1 "ann" "secret".
Proof.
  apply (create_user_keeps_others
           (create_user empty_database 5 "ann" "secret").1 6 "bob" "hunter2"
           "ann" "secret").
  discriminate.
Defined.

Lemma of_str_true (s : string) : Truth.of_str s = true <-> s <> ""%string.
Proof.
  unfold Truth.of_str. rewrite negb_true_iff. apply String.eqb_neq.
Qed.

(** X17: the login form, on a database that meets the schema and with
    both fields filled in, logs in exactly those whom
    [authenticate_user] accepts: the test [if user_id:] never turns an
    authenticated user away, because no id is 0.  Otherwise the session
    is left as it was. *)
Theorem login_form_outcome (db : Database) (session : SessionState)
    (name password : string) :
  Database_ok db -> name <> ""%string -> password <> ""%string ->
  login_form db session name password =
    match authenticate_user db name password with
    | Some uid => (mkSession (Some uid) (Some name),
                   [st_success "Login successful!"])
    | None => (session, [st_error "Invalid username or password"])
    end.
Proof.
  intros (_ & _ & _ & Hb & _) Hn Hp. unfold login_form.
  apply of_str_true in Hn, Hp. rewrite Hn, Hp. cbn [andb].
  destruct (authenticate_user db name password) as [uid|] eqn:Ea; [|reflexivity].
  destruct (authenticate_user_Some db name password uid Ea) as (u & Hin & Hid & _).
  rewrite Forall_forall in Hb. apply list_elem_of_In, Hb in Hin.
  unfold Truth.of_id.
  destruct (Z.eqb_spec uid 0) as [H0|_]; [lia | reflexivity].
Qed.

Lemma login_form_outcome_witness :
  login_form (create_user empty_database 5 "ann" "secret").1
             (mkSession None None) "ann" "secret"
  = (mkSession (Some 1%Z) (Some "ann"%string), [st_success "Login successful!"]).
Proof.
  rewrite (login_form_outcome (create_user empty_database 5 "ann" "secret").1
             (mkSession None None) "ann" "secret");
    [|apply create_user_keeps_schema, empty_database_ok|discriminate|discriminate].
  vm_compute. reflexivity.
Defined.

(** *** Saving and reading the history *)

#[global] Instance recorded_desc_trans : Transitive recorded_desc.
Proof. intros a b c. unfold recorded_desc. lia. Qed.

#[global] Instance recorded_desc_total : Total recorded_desc.
Proof. intros a b. unfold recorded_desc. lia. Qed.

(** The rows of one user, in the order of the table. *)
Lemma history_Permutation (db : Database) (uid : Z) :
  get_user_bmi_history db uid
  ≡ₚ map bmi_records.data
       (List.filter (fun r => (bmi_records.user_id r =? uid)%Z)
                    (bmi_records_rows db)).
Proof. apply merge_sort_Permutation. Qed.

Lemma history_sorted (db : Database) (uid : Z) :
  StronglySorted recorded_desc (get_user_bmi_history db uid).
Proof. apply StronglySorted_merge_sort; apply _. Qed.

Lemma history_In (db : Database) (uid : Z) (r : Row) :
  In r (get_user_bmi_history db uid) <->
  exists rec, In rec (bmi_records_rows db) /\
              bmi_records.user_id rec = uid /\ bmi_records.data rec = r.
Proof.
  rewrite <- list_elem_of_In, history_Permutation, list_elem_of_In, in_map_iff.
  split.
  - intros (rec & E & Hin). apply filter_In in Hin. destruct Hin as [Hin Hu].
    exists rec. apply Z.eqb_eq in Hu. auto.
  - intros (rec & Hin & Hu & E). exists rec. split; [exact E|].
    apply filter_In. split; [exact Hin | apply Z.eqb_eq, Hu].
Qed.

(** X18: [get_user_bmi_history] returns the records of the asked user
    and no others, each as often as it is stored, ordered by recorded_at
    with no row before a more recent one. *)
Theorem get_user_bmi_history_sorted (db : Database) (uid : Z) :
  StronglySorted recorded_desc (get_user_bmi_history db uid) /\
  (forall r, In r (get_user_bmi_history db uid) <->
             exists rec, In rec (bmi_records_rows db) /\
                         bmi_records.user_id rec = uid /\
                         bmi_records.data rec = r) /\
  length (get_user_bmi_history db uid)
  = length (List.filter (fun r => (bmi_records.user_id r =? uid)%Z)
                        (bmi_records_rows db)).
Proof.
  split; [apply history_sorted|]. split; [apply history_In|].
  rewrite history_Permutation. apply length_map.
Qed.





(** The first row of a sorted history is no older than any row. *)
Lemma history_head_latest (db : Database) (uid : Z) (r0 r : Row) :
  head (get_user_bmi_history db uid) = Some r0 ->
  In r (get_user_bmi_history db uid) ->
  (recorded_at r <= recorded_at r0)%Z.
Proof.
  pose proof (history_sorted db uid) as Hs.
  destruct (get_user_bmi_history db uid) as [|x l]; [discriminate|].
  intros [= ->] Hin. apply StronglySorted_inv in Hs. destruct Hs as [_ Hall].
  destruct Hin as [<-|Hin]; [lia|].
  rewrite Forall_forall in Hall. apply list_elem_of_In, Hall in Hin. exact Hin.
Qed.


(** X20: the Statistics page reads the most recent record.  On any
    non-empty history, current_bmi is the BMI of a record of that user
    than which the user has no more recent one. *)
Theorem statistics_current_is_latest (db : Database) (uid : Z) :
  get_user_bmi_history db uid <> [] ->
  exists (stats : gmap string value) (rec : bmi_records.row),
    get_bmi_statistics (get_user_bmi_history db uid) = Some stats /\
    In rec (bmi_records_rows db) /\ bmi_records.user_id rec = uid /\
    stats !! "current_bmi" = Some (VFloat (bmi (bmi_records.data rec))) /\
    forall other, In other (bmi_records_rows db) ->
                  bmi_records.user_id other = uid ->
                  (recorded_at (bmi_records.data other)
                   <= recorded_at (bmi_records.data rec))%Z.
Proof.
  intros Hne.
  destruct (get_user_bmi_history db uid) as [|r0 rest] eqn:E; [congruence|].
  assert (Hin0 : In r0 (get_user_bmi_history db uid)) by (rewrite E; left; reflexivity).
  apply history_In in Hin0. destruct Hin0 as (rec & Hrec & Hu & Hd).
  destruct (last_is_Some r0 rest) as [oldest Hlast].
  destruct (get_bmi_statistics_rows r0 rest oldest Hlast)
    as (avg & mn & mx & _ & _ & _ & Es).
  eexists _, rec. split; [exact Es|]. split; [exact Hrec|]. split; [exact Hu|].
  split; [rewrite Hd; dict_lookup|].
  intros other Ho Hou. rewrite Hd.
  apply (history_head_latest db uid); [rewrite E; reflexivity|].
  apply history_In. exists other. auto.
Qed.

Lemma statistics_current_is_latest_witness :
  exists (stats : gmap string value) (rec : bmi_records.row),
    get_bmi_statistics
      (get_user_bmi_history
         (save_bmi_record empty_database 9 1 70 1.70 24.22 "Normal weight") 1)
    = Some stats /\
    In rec (bmi_records_rows
              (save_bmi_record empty_database 9 1 70 1.70 24.22 "Normal weight")) /\
    bmi_records.user_id rec = 1%Z /\
    stats !! "current_bmi" = Some (VFloat (bmi (bmi_records.data rec))) /\
    forall other,
      In other (bmi_records_rows
                  (save_bmi_record empty_database 9 1 70 1.70 24.22 "Normal weight")) ->
      bmi_records.user_id other = 1%Z ->
      (recorded_at (bmi_records.data other)
       <= recorded_at (bmi_records.data rec))%Z.
Proof.
  apply (statistics_current_is_latest
           (save_bmi_record empty_database 9 1 70 1.70 24.22 "Normal weight") 1).
  vm_compute. discriminate.
Defined.

(** ** The application *)

Lemma number_input_Some (lo hi v x : Q) :
  number_input lo hi v = Some x <-> x = v /\ lo <= v /\ v <= hi.
Proof.
  unfold number_input.
  destruct (Py.le lo v) eqn:A; destruct (Py.le v hi) eqn:B; cbn [andb];
    try apply py_le_true in A; try apply py_le_true in B;
    try apply py_le_false in A; try apply py_le_false in B;
    split; try discriminate.
  - intros [= <-]. auto.
  - intros (-> & _). reflexivity.
  - intros (_ & _ & H). exfalso. lra.
  - intros (_ & H & _). exfalso. lra.
  - intros (_ & H & _). exfalso. lra.
Qed.

(** With values the number inputs can hand over, the button computes a
    BMI, which is never the sentinel, and saves it. *)
Lemma calculate_button_saves (db : Database) (now uid : Z) (w h : Q) :
  1 <= w -> w <= 300 -> 0.5 <= h -> h <= 3 ->
  exists (v : Q) (c : string),
    calculate_bmi w h = Some (v, c) /\
    c <> "Invalid height"%string /\
    calculate_button db now uid w h
    = Some (save_bmi_record db now uid w h v c,
            [st_success_bmi v;
             st_info ("Category: **" +:+ c +:+ "**");
             st_success "BMI record saved!"]).
Proof.
  intros W1 W2 H1 H2. assert (Hh : 0 < h) by lra.
  destruct (calculate_bmi_cases w h Hh) as (c & E & Hc).
  exists (Py.round (w / h ^ 2) 2), c. split; [exact E|].
  assert (Hne : c <> "Invalid height"%string)
    by (destruct Hc as [(_ & ->) | [(_ & _ & ->) | [(_ & _ & ->) | (_ & ->)]]];
        discriminate).
  split; [exact Hne|].
  unfold calculate_button. rewrite E. cbn [mbind option_bind].
  apply String.eqb_neq in Hne. rewrite Hne. reflexivity.
Qed.

(** X21: pressing "Calculate BMI" with a weight and a height the number
    inputs can hand over always saves a record: the error branch for an
    invalid height cannot be taken, and one row is appended to
    bmi_records, under the user's id and the next record id, holding the
    weight, the height, the time and the BMI and category that
    [calculate_bmi] returns; the users table is untouched. *)
Theorem calculate_button_always_saves (db : Database) (now uid : Z) (w h : Q) :
  1 <= w -> w <= 300 -> 0.5 <= h -> h <= 3 ->
  exists (db' : Database) (v : Q) (c : string),
    calculate_bmi w h = Some (v, c) /\
    c <> "Invalid height"%string /\
    calculate_button db now uid w h
    = Some (db', [st_success_bmi v;
                  st_info ("Category: **" +:+ c +:+ "**");
                  st_success "BMI record saved!"]) /\
    bmi_records_rows db'
    = bmi_records_rows db
        ++ [bmi_records.mk (bmi_records_seq db + 1) uid (mkRow w h v c now)] /\
    users_rows db' = users_rows db.
Proof.
  intros W1 W2 H1 H2.
  destruct (calculate_button_saves db now uid w h W1 W2 H1 H2)
    as (v & c & E & Hne & Eb).
  exists (save_bmi_record db now uid w h v c), v, c.
  split; [exact E|]. split; [exact Hne|]. split; [exact Eb|].
  split; reflexivity.
Qed.

Lemma calculate_button_always_saves_witness :
  exists (db' : Database) (v : Q) (c : string),
    calculate_bmi 70 1.70 = Some (v, c) /\
    c <> "Invalid height"%string /\
    calculate_button empty_database 9 1 70 1.70
    = Some (db', [st_success_bmi v;
                  st_info ("Category: **" +:+ c +:+ "**");
                  st_success "BMI record saved!"]) /\
    bmi_records_rows db'
    = bmi_records_rows empty_database
        ++ [bmi_records.mk (bmi_records_seq empty_database + 1) 1
              (mkRow 70 1.70 v c 9)] /\
    users_rows db' = users_rows empty_database.
Proof.
  apply (calculate_button_always_saves empty_database 9 1 70 1.70);
    unfold Qle; simpl; lia.
Defined.



(** What the register form does to the tables. *)
Lemma register_form_tables (db : Database) (now : Z) (name pw confirm : string) :
  bmi_records_rows (register_form db now name pw confirm).1 = bmi_records_rows db /\
  (users_rows (register_form db now name pw confirm).1 = users_rows db \/
   users_rows (register_form db now name pw confirm).1
   = users_rows db ++ [users.mk (users_seq db + 1) name (hash_password pw) now]).
Proof.
  unfold register_form.
  destruct (Truth.of_str name && Truth.of_str pw && Truth.of_str confirm);
    [|cbn; auto].
  destruct (String.eqb pw confirm); [|cbn; auto].
  destruct (in_dec String.string_dec name (map users.username (users_rows db)))
    as [Hin|Hout].
  - rewrite (create_user_taken db now name pw Hin). cbn. auto.
  - rewrite (create_user_fresh db now name pw Hout). cbn. auto.
Qed.

Lemma register_form_keeps_schema (db : Database) (now : Z)
    (name pw confirm : string) :
  Database_ok db -> Database_ok (register_form db now name pw confirm).1.
Proof.
  intros Hok. unfold register_form.
  destruct (Truth.of_str name && Truth.of_str pw && Truth.of_str confirm);
    [|exact Hok].
  destruct (String.eqb pw confirm); [|exact Hok].
  pose proof (create_user_keeps_schema db now name pw Hok) as H.
  destruct (create_user db now name pw) as [db' ok]. cbn [fst] in H.
  destruct ok; exact H.
Qed.

Lemma Record_ok_more_users (db db' : Database) (r : bmi_records.row) :
  (forall u, In u (users_rows db) -> In u (users_rows db')) ->
  Record_ok db r -> Record_ok db' r.
Proof.
  intros Hsub ((u & Hu & Hid) & Hrest). split; [|exact Hrest].
  exists u. auto.
Qed.

Lemma initial_ok : App_ok (init_database None) (mkSession None None).
Proof.
  split; [apply empty_database_ok|]. split; [reflexivity | apply Forall_nil_2].
Qed.

(** X23: what every run of [main] keeps true, starting from a fresh
    database and nobody logged in: the schema constraints hold; whoever
    the session names is a user of the database, under their own name;
    and every stored record belongs to an existing user, holds a weight
    and a height within the bounds of the inputs, and carries the BMI and
    the category [calculate_bmi] gives them, never "Invalid height". *)
Theorem main_keeps_invariant :
  App_ok (init_database None) (mkSession None None) /\
  forall (db db' : Database) (session session' : SessionState)
         (ev : Event) (out : list Notice),
    App_ok db session ->
    main (Some db) session ev = Some (db', session', out) ->
    App_ok db' session'.
Proof.
  split; [apply initial_ok|].
  intros db db' session session' ev out.
  intros (Hdb & Hs & Hr) Hm. unfold main in Hm. cbn [init_database] in Hm.
  unfold Session_ok in Hs.
  destruct (user_id session) as [uid|] eqn:Eu.
  - (* somebody is logged in *)
    destruct ev as [| | |now w h]; try discriminate.
    + injection Hm as <- <- <-.
      split; [exact Hdb|]. split; [reflexivity | exact Hr].
    + destruct (number_input 1.0 300.0 w) as [w'|] eqn:Ew; [|discriminate].
      destruct (number_input 0.5 3.0 h) as [h'|] eqn:Eh; [|discriminate].
      apply number_input_Some in Ew, Eh.
      destruct Ew as (-> & W1 & W2). destruct Eh as (-> & H1 & H2).
      cbn [mbind option_bind] in Hm.
      destruct (calculate_button_saves db now uid w h) as (v & c & E & Hne & Eb);
        try lra.
      rewrite Eb in Hm. cbn [mbind option_bind] in Hm.
      injection Hm as <- <- <-.
      split; [apply save_bmi_record_keeps_schema, Hdb|].
      split; [unfold Session_ok; rewrite Eu; exact Hs|].
      unfold save_bmi_record at 2. cbn [bmi_records_rows].
      apply Forall_app. split.
      * eapply Forall_impl; [exact Hr|]. intros r. apply Record_ok_more_users. auto.
      * apply Forall_singleton.
        destruct Hs as (u & Hu & Hid & _).
        split; [exists u; split; [exact Hu | exact Hid]|].
        cbn. repeat split; try assumption; lra.
  - (* nobody is logged in *)
    destruct ev as [name pw|now name pw confirm| |]; try discriminate.
    + destruct (login_form db session name pw) as [s1 o1] eqn:El.
      injection Hm as <- <- <-.
      split; [exact Hdb|]. split; [|exact Hr].
      unfold login_form in El.
      destruct (Truth.of_str name && Truth.of_str pw);
        [|injection El as <- _; unfold Session_ok; rewrite Eu; exact Hs].
      destruct (authenticate_user db name pw) as [i|] eqn:Ea;
        [|injection El as <- _; unfold Session_ok; rewrite Eu; exact Hs].
      pose proof (authenticate_user_Some db name pw i Ea) as Hf.
      destruct (Truth.of_id (Some i));
        [|injection El as <- _; unfold Session_ok; rewrite Eu; exact Hs].
      injection El as <- _. unfold Session_ok. cbn [user_id username].
      destruct Hf as (u & Hu & Hid & Hn & _). exists u.
      split; [exact Hu|]. split; [exact Hid | congruence].
    + destruct (register_form db now name pw confirm) as [d1 o1] eqn:Er.
      injection Hm as <- <- <-.
      pose proof (register_form_keeps_schema db now name pw confirm Hdb) as H1.
      destruct (register_form_tables db now name pw confirm) as [Hrec Husers].
      rewrite Er in H1, Hrec, Husers. cbn [fst] in *.
      split; [exact H1|]. split; [unfold Session_ok; rewrite Eu; exact Hs|].
      rewrite Hrec. eapply Forall_impl; [exact Hr|].
      intros r. apply Record_ok_more_users. intros u Hu.
      destruct Husers as [-> | ->]; [exact Hu | apply in_or_app; left; exact Hu].
Qed.

Lemma main_keeps_invariant_witness :
  App_ok (create_user empty_database 5 "ann" "secret").1 (mkSession None None).
Proof.
  apply (proj2 main_keeps_invariant empty_database _ (mkSession None None) _
           (Register 5 "ann" "secret" "secret")
           [st_success "Account created successfully! Please login."]).
  - apply (proj1 main_keeps_invariant).
  - vm_compute. reflexivity.
Defined.

(** X24: a run of [main] only ever adds: the rows the two tables held
    are all still there, unchanged and in place, with at most one new
    row in all; a record is added only while somebody is logged in, and
    then under that user's id; a user is added only while nobody is. *)
Theorem main_only_appends (db db' : Database) (session session' : SessionState)
    (ev : Event) (out : list Notice) :
  main (Some db) session ev = Some (db', session', out) ->
  exists (new_users : list users.row) (new_records : list bmi_records.row),
    users_rows db' = users_rows db ++ new_users /\
    bmi_records_rows db' = bmi_records_rows db ++ new_records /\
    (length new_users + length new_records <= 1)%nat /\
    (forall r, In r new_records -> user_id session = Some (bmi_records.user_id r)) /\
    (new_users <> [] -> user_id session = None).
Proof.
  intros Hm. unfold main in Hm. cbn [init_database] in Hm.
  assert (Hnone : exists (nu : list users.row) (nr : list bmi_records.row),
             users_rows db = users_rows db ++ nu /\
             bmi_records_rows db = bmi_records_rows db ++ nr /\
             (length nu + length nr <= 1)%nat /\
             (forall r, In r nr -> user_id session = Some (bmi_records.user_id r)) /\
             (nu <> [] -> user_id session = None)).
  { exists [], []. rewrite !app_nil_r.
    split; [reflexivity|]. split; [reflexivity|]. split; [simpl; lia|].
    split; [intros r [] | intros H; congruence]. }
  destruct (user_id session) as [uid|] eqn:Eu.
  - destruct ev as [| | |now w h]; try discriminate.
    + injection Hm as <- <- <-. exact Hnone.
    + destruct (number_input 1.0 300.0 w) as [w'|] eqn:Ew; [|discriminate].
      destruct (number_input 0.5 3.0 h) as [h'|] eqn:Eh; [|discriminate].
      cbn [mbind option_bind] in Hm. unfold calculate_button in Hm.
      destruct (calculate_bmi w' h') as [[v c]|]; [|discriminate].
      cbn [mbind option_bind] in Hm.
      destruct (String.eqb c "Invalid height"); cbn [mbind option_bind] in Hm;
        injection Hm as <- <- <-.
      * exact Hnone.
      * exists [], [bmi_records.mk (bmi_records_seq db + 1) uid
                      (mkRow w' h' v c now)].
        rewrite app_nil_r.
        split; [reflexivity|]. split; [reflexivity|]. split; [simpl; lia|].
        split; [intros r [<-|[]]; reflexivity | intros H; congruence].
  - destruct ev as [name pw|now name pw confirm| |]; try discriminate.
    + destruct (login_form db session name pw) as [s1 o1].
      injection Hm as <- <- <-. exact Hnone.
    + destruct (register_form db now name pw confirm) as [d1 o1] eqn:Er.
      injection Hm as <- <- <-.
      destruct (register_form_tables db now name pw confirm) as [Hrec Husers].
      rewrite Er in Hrec, Husers. cbn [fst] in *.
      destruct Husers as [Hu | Hu].
      * destruct Hnone as (nu & nr & H1 & H2 & H3).
        exists nu, nr. rewrite Hu, Hrec. auto.
      * eexists [_], []. rewrite app_nil_r. split; [exact Hu|].
        split; [exact Hrec|]. split; [simpl; lia|].
        split; [intros r [] | reflexivity].
Qed.

Lemma main_only_appends_witness :
  exists (new_users : list users.row) (new_records : list bmi_records.row),
    users_rows (create_user empty_database 5 "ann" "secret").1
    = users_rows empty_database ++ new_users /\
    bmi_records_rows (create_user empty_database 5 "ann" "secret").1
    = bmi_records_rows empty_database ++ new_records /\
    (length new_users + length new_records <= 1)%nat /\
    (forall r, In r new_records ->
               user_id (mkSession None None) = Some (bmi_records.user_id r)) /\
    (new_users <> [] -> user_id (mkSession None None) = None).
Proof.
  apply (main_only_appends empty_database _ (mkSession None None)
           (mkSession None None) (Register 5 "ann" "secret" "secret")
           [st_success "Account created successfully! Please login."]).
  vm_compute. reflexivity.
Defined.

(** X25: registering and logging in through the forms.  With nobody
    logged in, a database that meets the schema, a username not yet
    taken and a non-empty password typed twice, the register form
    creates the account and the login form, given the same username and
    password, then opens the session of the new user. *)
Theorem register_then_login (db : Database) (session : SessionState) (now : Z)
    (name pw : string) :
  Database_ok db -> user_id session = None ->
  name <> ""%string -> pw <> ""%string ->
  ~ In name (map users.username (users_rows db)) ->
  exists db1 : Database,
    main (Some db) session (Register now name pw pw)
    = Some (db1, session,
            [st_success "Account created successfully! Please login."]) /\
    main (Some db1) session (Login name pw)
    = Some (db1, mkSession (Some (users_seq db + 1)%Z) (Some name),
            [st_success "Login successful!"]).
Proof.
  intros Hdb Eu Hn Hp Hfresh.
  pose proof (create_user_fresh db now name pw Hfresh) as Ec.
  exists (create_user db now name pw).1.
  unfold main. cbn [init_database]. rewrite Eu.
  apply of_str_true in Hn, Hp. split.
  - unfold register_form. rewrite Hn, Hp. cbn [andb]. rewrite String.eqb_refl.
    rewrite Ec. reflexivity.
  - unfold login_form, authenticate_user. rewrite Hn, Hp, Ec. cbn [andb fst users_rows].
    rewrite (find_new_user _ _ _ _ _ Hfresh). cbn [mbind option_bind users.id].
    unfold Truth.of_id.
    destruct Hdb as (_ & _ & Hseq & _).
    destruct (Z.eqb_spec (users_seq db + 1) 0) as [H0|_]; [lia | reflexivity].
Qed.

Lemma register_then_login_witness :
  exists db1 : Database,
    main (Some empty_database) (mkSession None None)
         (Register 5 "ann" "secret" "secret")
    = Some (db1, mkSession None None,
            [st_success "Account created successfully! Please login."]) /\
    main (Some db1) (mkSession None None) (Login "ann" "secret")
    = Some (db1, mkSession (Some (users_seq empty_database + 1)%Z) (Some "ann"%string),
            [st_success "Login successful!"]).
Proof.
  apply (register_then_login empty_database (mkSession None None) 5 "ann" "secret");
    [apply empty_database_ok | reflexivity | discriminate | discriminate |].
  intros H. destruct H.
Defined.
